(** * load-profile: the Qt front end of [process_load.cpp]

    A shallow embedding of [app-cplusplus-rev01/process_load.cpp]:
    the stub [process_csv], the window class [MainWindow] with its
    constructor and its slot [onSelectFile], and the start-up part of
    [main].

    The program only performs input and output, so the embedding is a
    state-and-exception monad over a [World] that records, in order,
    every observable action of a run. *)

From Stdlib Require Import String Ascii List Bool ZArith.
From ExtLib Require Import Structures.Monad.
Import ListNotations.
Import MonadNotation.
Local Open Scope string_scope.
Local Open Scope monad_scope.

(** ** Qt strings

    [QString] belongs to Qt, not to this repository.  The program uses
    three of its operations: [QString::isEmpty], [QString::toStdString]
    (the UTF-8 encoding as a [std::string]) and the rendering that
    [QDebug::operator<<] gives a [QString] (quoted, with escapes).  They
    are kept abstract; the one law is that encoding a string that is not
    empty yields at least one byte. *)
Class QStringOps : Type := {
  QString : Type;
  isEmpty : QString -> bool;
  toStdString : QString -> string;
  qdebug_quoted : QString -> string;
  toStdString_nonempty :
    forall q : QString, isEmpty q = false -> toStdString q <> ""
}.

(** The double quote and the line feed, as one-character strings. *)
Definition dquote : string := String "034"%char EmptyString.
Definition newline : string := String "010"%char EmptyString.

Definition string_isEmpty (s : string) : bool :=
  match s with
  | EmptyString => true
  | String _ _ => false
  end.

(** A model of [QString] for paths of plain printable ASCII, where the
    UTF-8 encoding is the text itself and [QDebug] has nothing to
    escape. *)
#[export, refine] Instance ascii_QString : QStringOps := {|
  QString := string;
  isEmpty := string_isEmpty;
  toStdString := fun q => q;
  qdebug_quoted := fun q => dquote ++ q ++ dquote
|}.
Proof.
  intros q Hq Heq. subst q. discriminate Hq.
Defined.

(** ** Observable actions *)

Inductive ostream : Type := Cout | Cerr.

(** What can leave a [try] block: an object of a class derived from
    [std::exception], with its [what()] text, or a thrown value of any
    other type (such as [throw 42;]). *)
Inductive thrown : Type :=
| StdException (what : string)
| ThrownInt (v : Z).

Inductive outcome (A : Type) : Type :=
| Normal (a : A)
| Raised (e : thrown).
Arguments Normal {A} a.
Arguments Raised {A} e.

Section Program.
Context {QS : QStringOps}.

(** One entry per action the program performs on its environment.
    [ProcessCsvCalled] is the only ghost entry: it marks the call of
    [process_csv] made by the slot, so that invocations can be counted
    independently of what the callee prints. *)
Inductive event : Type :=
| FileDialogOpened (caption dir filter : string) (chosen : QString)
| WarningShown (title text : string)
| DebugMessage (msg : string)
| StreamWrite (o : ostream) (s : string)
| StreamEndl (o : ostream)
| ProcessCsvCalled (input_file : string).

(** The environment of a run.
    - [trace]: the actions so far, oldest first;
    - [user]: what the person at the screen answers to a file dialog,
      given everything that has happened so far (the empty [QString]
      stands for Cancel);
    - [disk]: the files that exist, with their contents. *)
Record World : Type := mkWorld {
  trace : list event;
  user : list event -> QString;
  disk : string -> option string
}.

(** Effects of C++ code persist when an exception unwinds, so the
    world is returned in both outcomes. *)
Definition M (A : Type) : Type := World -> outcome A * World.

Definition M_ret {A} (a : A) : M A := fun w => (Normal a, w).

Definition M_bind {A B} (m : M A) (k : A -> M B) : M B :=
  fun w =>
    match m w with
    | (Normal a, w') => k a w'
    | (Raised e, w') => (Raised e, w')
    end.

#[export] Instance Monad_M : Monad M := {|
  ret := @M_ret;
  bind := @M_bind
|}.

(** [try { body } catch (const std::exception& e) { handler(e.what()) }]:
    the clause matches by type, so only [StdException] enters the
    handler; anything else keeps unwinding. *)
Definition try_catch_std_exception {A}
    (body : M A) (handler : string -> M A) : M A :=
  fun w =>
    match body w with
    | (Normal a, w') => (Normal a, w')
    | (Raised (StdException what), w') => handler what w'
    | (Raised (ThrownInt v), w') => (Raised (ThrownInt v), w')
    end.

Definition emit (e : event) : M unit :=
  fun w => (Normal tt, mkWorld (trace w ++ [e]) (user w) (disk w)).

(** *** The library calls the program makes *)

(** [stream << s] *)
Definition stream_put (o : ostream) (s : string) : M unit :=
  emit (StreamWrite o s).

(** [stream << std::endl] *)
Definition stream_endl (o : ostream) : M unit :=
  emit (StreamEndl o).

(** [qDebug() << a << b ...;]: one message, the items separated by a
    space. *)
Definition qDebug (items : list string) : M unit :=
  emit (DebugMessage (String.concat " " items)).

(** [QFileDialog::getOpenFileName(parent, caption, dir, filter)]: modal;
    returns the user's choice. *)
Definition getOpenFileName (caption dir filter : string) : M QString :=
  fun w =>
    let chosen := user w (trace w) in
    (Normal chosen,
     mkWorld (trace w ++ [FileDialogOpened caption dir filter chosen])
             (user w) (disk w)).

(** [QMessageBox::warning(parent, title, text)]: modal; the button
    pressed is ignored by the caller. *)
Definition QMessageBox_warning (title text : string) : M unit :=
  emit (WarningShown title text).

(** ** [process_csv] *)

(** The [try] block, with the place the comment reserves for
    ["Your existing CSV processing code here..."] as [csv_logic]. *)
Definition process_csv_try (csv_logic : string -> M unit)
    (input_file : string) : M unit :=
  stream_put Cout "Processing file: " ;;
  stream_put Cout input_file ;;
  stream_endl Cout ;;
  csv_logic input_file.

(** The [catch] block. *)
Definition process_csv_catch (what : string) : M unit :=
  stream_put Cerr "Error: " ;;
  stream_put Cerr what ;;
  stream_endl Cerr.

Definition process_csv_with (csv_logic : string -> M unit)
    (input_file : string) : M unit :=
  try_catch_std_exception
    (process_csv_try csv_logic input_file)
    process_csv_catch.

(** The source as it stands: nothing in the reserved place. *)
Definition no_csv_logic (_ : string) : M unit := ret tt.

Definition process_csv (input_file : string) : M unit :=
  process_csv_with no_csv_logic input_file.

(** ** [MainWindow::onSelectFile] *)

(** The call [process_csv(...)] as made from the slot. *)
Definition call_process_csv (input_file : string) : M unit :=
  emit (ProcessCsvCalled input_file) ;;
  process_csv input_file.

Definition onSelectFile : M unit :=
  fileName <- getOpenFileName "Open CSV File" "" "CSV Files (*.csv)" ;;
  if isEmpty fileName then
    QMessageBox_warning "No File Selected" "Please select a valid CSV file."
  else
    qDebug ["Selected file:"; qdebug_quoted fileName] ;;
    call_process_csv (toStdString fileName).

(** ** The window *)

(** [QWidget*] handles: children of the window are named by their
    position in its list of children. *)
Definition widget_id : Type := nat.

Inductive qt_signal : Type := Clicked.

(** The slots [MainWindow] declares. *)
Inductive slot : Type := SlotOnSelectFile.

(** [x, y, width, height] *)
Definition QRect : Type := (Z * Z * Z * Z)%type.

(** A [QPushButton]; [button_geometry] is [None] until the program
    sets it. *)
Record QPushButton : Type := mkButton {
  button_text : string;
  button_geometry : option QRect
}.

Record connection : Type := mkConnection {
  conn_sender : widget_id;
  conn_signal : qt_signal;
  conn_slot : slot
}.

(** The state of a [MainWindow] object that the program touches;
    [window_size] is [None] until the program sets it, and a widget
    is hidden until [show()].  [window_minimumSize] and
    [window_maximumSize] are the size constraints of the widget, [None]
    until the program sets one ([setMinimumSize], [setMaximumSize],
    [setFixedSize]). *)
Record MainWindow : Type := mkMainWindow {
  window_parent : option widget_id;
  window_size : option (Z * Z);
  window_minimumSize : option (Z * Z);
  window_maximumSize : option (Z * Z);
  window_visible : bool;
  window_children : list QPushButton;
  window_connections : list connection
}.

(** The base-class initialiser [QMainWindow(parent)]. *)
Definition QMainWindow_init (parent : option widget_id) : MainWindow :=
  mkMainWindow parent None None None false [] [].

Definition resize (width height : Z) (win : MainWindow) : MainWindow :=
  mkMainWindow (window_parent win) (Some (width, height))
    (window_minimumSize win) (window_maximumSize win)
    (window_visible win) (window_children win) (window_connections win).

(** [new QPushButton(text, this)]: the new child and its handle. *)
Definition new_QPushButton (text : string) (win : MainWindow)
    : widget_id * MainWindow :=
  (length (window_children win),
   mkMainWindow (window_parent win) (window_size win)
     (window_minimumSize win) (window_maximumSize win) (window_visible win)
     (window_children win ++ [mkButton text None])
     (window_connections win)).

Fixpoint update_child (i : widget_id) (f : QPushButton -> QPushButton)
    (l : list QPushButton) : list QPushButton :=
  match l, i with
  | [], _ => []
  | b :: r, O => f b :: r
  | b :: r, S j => b :: update_child j f r
  end.

(** [button->setGeometry(x, y, w, h)] *)
Definition setGeometry (button : widget_id) (x y w h : Z)
    (win : MainWindow) : MainWindow :=
  mkMainWindow (window_parent win) (window_size win)
     (window_minimumSize win) (window_maximumSize win) (window_visible win)
    (update_child button
       (fun b => mkButton (button_text b) (Some (x, y, w, h)))
       (window_children win))
    (window_connections win).

(** [connect(sender, signal, this, slot)] *)
Definition connect (sender : widget_id) (sig : qt_signal) (sl : slot)
    (win : MainWindow) : MainWindow :=
  mkMainWindow (window_parent win) (window_size win)
     (window_minimumSize win) (window_maximumSize win) (window_visible win)
    (window_children win)
    (window_connections win ++ [mkConnection sender sig sl]).

Definition show (win : MainWindow) : MainWindow :=
  mkMainWindow (window_parent win) (window_size win)
    (window_minimumSize win) (window_maximumSize win) true
    (window_children win) (window_connections win).

(** A widget has a fixed size when its minimum and its maximum size
    are both set, and to the same size (what [setFixedSize] does). *)
Definition is_fixed_size (win : MainWindow) : bool :=
  match window_minimumSize win, window_maximumSize win with
  | Some (min_w, min_h), Some (max_w, max_h) =>
      Z.eqb min_w max_w && Z.eqb min_h max_h
  | _, _ => false
  end.

(** [MainWindow::MainWindow(QWidget* parent)] *)
Definition MainWindow_ctor (parent : option widget_id) : MainWindow :=
  let this := QMainWindow_init parent in
  let this := resize 300 100 this in
  let (selectFileButton, this) := new_QPushButton "Select CSV File" this in
  let this := setGeometry selectFileButton 50 20 200 50 this in
  connect selectFileButton Clicked SlotOnSelectFile this.

(** *** The event loop *)

Definition run_slot (sl : slot) : M unit :=
  match sl with
  | SlotOnSelectFile => onSelectFile
  end.

Definition signal_eqb (a b : qt_signal) : bool :=
  match a, b with
  | Clicked, Clicked => true
  end.

(** The slots a signal of a widget reaches, in connection order. *)
Definition receivers (win : MainWindow) (sender : widget_id)
    (sig : qt_signal) : list slot :=
  map conn_slot
    (filter (fun c => Nat.eqb (conn_sender c) sender
                      && signal_eqb (conn_signal c) sig)
            (window_connections win)).

Fixpoint run_slots (sls : list slot) : M unit :=
  match sls with
  | [] => ret tt
  | sl :: r => run_slot sl ;; run_slots r
  end.

(** The user clicks the child [button]. *)
Definition click (win : MainWindow) (button : widget_id) : M unit :=
  run_slots (receivers win button Clicked).

(** [app.exec()] for a session in which the user clicks the given
    widgets, one after the other, and then closes the window. *)
Fixpoint app_exec (win : MainWindow) (clicks : list widget_id) : M unit :=
  match clicks with
  | [] => ret tt
  | b :: r => click win b ;; app_exec win r
  end.

(** [main], up to the event loop: the window is built, then shown. *)
Definition main_window : MainWindow := show (MainWindow_ctor None).

Definition main (clicks : list widget_id) : M unit :=
  app_exec main_window clicks.

(** ** Reading a trace *)

(** The dialog answer a run of the slot in [w] will receive. *)
Definition answer (w : World) : QString := user w (trace w).

(** The actions a computation adds to the trace of [w]. *)
Definition emitted {A} (m : M A) (w : World) : list event :=
  skipn (length (trace w)) (trace (snd (m w))).

Fixpoint warnings_shown (evs : list event) : list (string * string) :=
  match evs with
  | [] => []
  | WarningShown title text :: r => (title, text) :: warnings_shown r
  | _ :: r => warnings_shown r
  end.

Fixpoint process_csv_calls (evs : list event) : list string :=
  match evs with
  | [] => []
  | ProcessCsvCalled input_file :: r => input_file :: process_csv_calls r
  | _ :: r => process_csv_calls r
  end.

(** Which arm of the [if] in [onSelectFile] a trace shows. *)
Definition warning_branch_taken (evs : list event) : bool :=
  match warnings_shown evs with
  | [] => false
  | _ :: _ => true
  end.

Definition processing_branch_taken (evs : list event) : bool :=
  match process_csv_calls evs with
  | [] => false
  | _ :: _ => true
  end.

Definition ostream_eqb (a b : ostream) : bool :=
  match a, b with
  | Cout, Cout | Cerr, Cerr => true
  | _, _ => false
  end.

(** The characters a stream has received; [std::endl] is a line feed. *)
Fixpoint stream_text (o : ostream) (evs : list event) : string :=
  match evs with
  | [] => ""
  | StreamWrite o' s :: r =>
      if ostream_eqb o o' then s ++ stream_text o r else stream_text o r
  | StreamEndl o' :: r =>
      if ostream_eqb o o' then newline ++ stream_text o r
      else stream_text o r
  | _ :: r => stream_text o r
  end.

(** The diagnostic lines of a trace, in the order they are completed:
    a [qDebug] message is a line; a line of a stream is what was
    written to it up to its [std::endl].  [out] and [err] hold the
    unfinished lines of [std::cout] and [std::cerr]. *)
Fixpoint log_lines_from (out err : string) (evs : list event)
    : list string :=
  match evs with
  | [] => []
  | DebugMessage msg :: r => msg :: log_lines_from out err r
  | StreamWrite Cout s :: r => log_lines_from (out ++ s) err r
  | StreamWrite Cerr s :: r => log_lines_from out (err ++ s) r
  | StreamEndl Cout :: r => out :: log_lines_from "" err r
  | StreamEndl Cerr :: r => err :: log_lines_from out "" r
  | _ :: r => log_lines_from out err r
  end.

Definition log_lines (evs : list event) : list string :=
  log_lines_from "" "" evs.

(** Whether an action is a write to [std::cout]. *)
Definition is_cout (e : event) : bool :=
  match e with
  | StreamWrite Cout _ | StreamEndl Cout => true
  | _ => false
  end.

(** The same world with other files on the disk. *)
Definition with_disk (d : string -> option string) (w : World) : World :=
  mkWorld (trace w) (user w) d.

(** *** Reading the trace of a session *)

(** The answers the file dialogs of a trace returned, oldest first. *)
Fixpoint dialog_answers (evs : list event) : list QString :=
  match evs with
  | [] => []
  | FileDialogOpened _ _ _ chosen :: r => chosen :: dialog_answers r
  | _ :: r => dialog_answers r
  end.

(** Caption, start directory and filter of each file dialog of a
    trace. *)
Fixpoint dialog_settings (evs : list event)
    : list (string * string * string) :=
  match evs with
  | [] => []
  | FileDialogOpened caption dir filter _ :: r =>
      (caption, dir, filter) :: dialog_settings r
  | _ :: r => dialog_settings r
  end.

(** The clicks of a session that land on the widget [button]. *)
Definition clicks_on (button : widget_id) (clicks : list widget_id)
    : list widget_id :=
  filter (fun b => Nat.eqb b button) clicks.

(** The actions of one run of [onSelectFile] whose dialog returns
    [fileName], arm by arm. *)
Definition slot_events (fileName : QString) : list event :=
  FileDialogOpened "Open CSV File" "" "CSV Files (*.csv)" fileName ::
  if isEmpty fileName then
    [WarningShown "No File Selected" "Please select a valid CSV file."]
  else
    [DebugMessage ("Selected file: " ++ qdebug_quoted fileName);
     ProcessCsvCalled (toStdString fileName);
     StreamWrite Cout "Processing file: ";
     StreamWrite Cout (toStdString fileName);
     StreamEndl Cout].

(** The world after one run of the slot. *)
Definition after_slot (w : World) : World :=
  mkWorld (trace w ++ slot_events (answer w)) (user w) (disk w).

(** The diagnostic lines one dialog answer leads to. *)
Definition answer_log (fileName : QString) : list string :=
  if isEmpty fileName then []
  else [("Selected file: " ++ qdebug_quoted fileName)%string;
        ("Processing file: " ++ toStdString fileName)%string].

End Program.

(** ** Concrete runs, over plain ASCII paths *)

Definition no_files : string -> option string := fun _ => None.

Definition one_file (path contents : string) : string -> option string :=
  fun p => if String.eqb p path then Some contents else None.

(** A user who cancels every dialog. *)
Definition world_cancel : World :=
  mkWorld [] (fun _ => "") no_files.

(** A user who picks [/data/load.csv], which exists. *)
Definition world_pick : World :=
  mkWorld [] (fun _ => "/data/load.csv")
    (one_file "/data/load.csv" "time,kw").

(** A user who types the name of a file that does not exist, in a
    session that has already seen one cancelled dialog. *)
Definition world_missing : World :=
  mkWorld [FileDialogOpened "Open CSV File" "" "CSV Files (*.csv)" "";
           WarningShown "No File Selected" "Please select a valid CSV file."]
    (fun _ => "/data/load.csv") no_files.

(** A user who cancels the first dialog, then picks [/data/load.csv],
    then picks [/data/old.csv]. *)
Definition world_retry : World :=
  mkWorld []
    (fun history =>
       match length (dialog_answers history) with
       | 0 => ""
       | 1 => "/data/load.csv"
       | _ => "/data/old.csv"
       end%nat)
    no_files.

(** * Properties *)

Section Properties.
Context {QS : QStringOps}.

(** ** The runs of the two functions, as equations *)

Lemma skipn_length_app (A : Type) (l r : list A) :
  skipn (length l) (l ++ r) = r.
Proof.
  induction l as [| a l IH]; simpl; [reflexivity | exact IH].
Qed.

Lemma emitted_extension (A : Type) (m : M A) (w : World) (l : list event) :
  trace (snd (m w)) = (trace w ++ l)%list -> emitted m w = l.
Proof.
  intros Htrace. unfold emitted. rewrite Htrace. apply skipn_length_app.
Qed.

Ltac unfold_run :=
  cbv [process_csv process_csv_with process_csv_try process_csv_catch
       try_catch_std_exception no_csv_logic call_process_csv
       stream_put stream_endl qDebug QMessageBox_warning getOpenFileName
       emit bind ret Monad_M M_bind M_ret
       trace user disk fst snd].

Lemma process_csv_try_run (input_file : string) (w : World) :
  process_csv_try no_csv_logic input_file w =
  (Normal tt,
   mkWorld (trace w ++ [StreamWrite Cout "Processing file: ";
                        StreamWrite Cout input_file;
                        StreamEndl Cout])
           (user w) (disk w)).
Proof.
  destruct w as [tr u d]. unfold_run.
  rewrite <- !app_assoc. reflexivity.
Qed.

Lemma process_csv_run (input_file : string) (w : World) :
  process_csv input_file w =
  (Normal tt,
   mkWorld (trace w ++ [StreamWrite Cout "Processing file: ";
                        StreamWrite Cout input_file;
                        StreamEndl Cout])
           (user w) (disk w)).
Proof.
  unfold process_csv, process_csv_with, try_catch_std_exception.
  rewrite process_csv_try_run. reflexivity.
Qed.

Lemma onSelectFile_empty_run (w : World) :
  isEmpty (answer w) = true ->
  onSelectFile w =
  (Normal tt,
   mkWorld (trace w ++
              [FileDialogOpened "Open CSV File" "" "CSV Files (*.csv)"
                 (answer w);
               WarningShown "No File Selected"
                 "Please select a valid CSV file."])
           (user w) (disk w)).
Proof.
  intros Hempty. destruct w as [tr u d]. unfold answer in *. simpl in Hempty.
  unfold onSelectFile. unfold_run. rewrite Hempty. unfold_run.
  rewrite <- !app_assoc. reflexivity.
Qed.

Lemma onSelectFile_nonempty_run (w : World) :
  isEmpty (answer w) = false ->
  onSelectFile w =
  (Normal tt,
   mkWorld (trace w ++
              [FileDialogOpened "Open CSV File" "" "CSV Files (*.csv)"
                 (answer w);
               DebugMessage ("Selected file: " ++ qdebug_quoted (answer w));
               ProcessCsvCalled (toStdString (answer w));
               StreamWrite Cout "Processing file: ";
               StreamWrite Cout (toStdString (answer w));
               StreamEndl Cout])
           (user w) (disk w)).
Proof.
  intros Hnonempty. destruct w as [tr u d]. unfold answer in *.
  simpl in Hnonempty.
  unfold onSelectFile. unfold_run. rewrite Hnonempty. unfold_run.
  rewrite <- !app_assoc. reflexivity.
Qed.

(** ** What each run adds to the trace *)

Lemma process_csv_emitted (input_file : string) (w : World) :
  emitted (process_csv input_file) w =
  [StreamWrite Cout "Processing file: ";
   StreamWrite Cout input_file;
   StreamEndl Cout].
Proof.
  apply emitted_extension. rewrite process_csv_run. reflexivity.
Qed.

Lemma onSelectFile_empty_emitted (w : World) :
  isEmpty (answer w) = true ->
  emitted onSelectFile w =
  [FileDialogOpened "Open CSV File" "" "CSV Files (*.csv)" (answer w);
   WarningShown "No File Selected" "Please select a valid CSV file."].
Proof.
  intros Hempty. apply emitted_extension.
  rewrite (onSelectFile_empty_run w Hempty). reflexivity.
Qed.

Lemma onSelectFile_nonempty_emitted (w : World) :
  isEmpty (answer w) = false ->
  emitted onSelectFile w =
  [FileDialogOpened "Open CSV File" "" "CSV Files (*.csv)" (answer w);
   DebugMessage ("Selected file: " ++ qdebug_quoted (answer w));
   ProcessCsvCalled (toStdString (answer w));
   StreamWrite Cout "Processing file: ";
   StreamWrite Cout (toStdString (answer w));
   StreamEndl Cout].
Proof.
  intros Hnonempty. apply emitted_extension.
  rewrite (onSelectFile_nonempty_run w Hnonempty). reflexivity.
Qed.

Lemma answer_with_disk (d : string -> option string) (w : World) :
  answer (with_disk d w) = answer w.
Proof. reflexivity. Qed.

(** ** The file-selection flow *)

(** C1.  When the dialog returns an empty result, the slot opens the
    dialog, shows exactly one warning box, whose text is
    ["Please select a valid CSV file."], does nothing else, and
    [process_csv] is not called. *)
Theorem onSelectFile_cancel_warns_once (w : World) :
  isEmpty (answer w) = true ->
  fst (onSelectFile w) = Normal tt /\
  emitted onSelectFile w =
    [FileDialogOpened "Open CSV File" "" "CSV Files (*.csv)" (answer w);
     WarningShown "No File Selected" "Please select a valid CSV file."] /\
  warnings_shown (emitted onSelectFile w) =
    [("No File Selected", "Please select a valid CSV file.")] /\
  process_csv_calls (emitted onSelectFile w) = [].
Proof.
  intros Hempty.
  rewrite (onSelectFile_empty_emitted w Hempty).
  rewrite (onSelectFile_empty_run w Hempty).
  repeat (split; [reflexivity |]). reflexivity.
Qed.

(** C2.  When the dialog returns a path that is not empty, the slot
    calls [process_csv] exactly once, with the [std::string] form of
    that very path, shows no warning box, and neither reads nor changes
    the disk: the run is the same whatever files exist.  The call is
    the last thing the slot does: the run ends as [process_csv] on that
    path ends, started after the dialog and the [qDebug] message, and
    what reaches [std::cout] is the output of that one call. *)
Theorem onSelectFile_path_processed_once (w : World) :
  isEmpty (answer w) = false ->
  fst (onSelectFile w) = Normal tt /\
  process_csv_calls (emitted onSelectFile w) = [toStdString (answer w)] /\
  warnings_shown (emitted onSelectFile w) = [] /\
  disk (snd (onSelectFile w)) = disk w /\
  (forall d : string -> option string,
     fst (onSelectFile (with_disk d w)) = Normal tt /\
     emitted onSelectFile (with_disk d w) = emitted onSelectFile w) /\
  onSelectFile w =
    process_csv (toStdString (answer w))
      (mkWorld
         (trace w ++
            [FileDialogOpened "Open CSV File" "" "CSV Files (*.csv)"
               (answer w);
             DebugMessage ("Selected file: " ++ qdebug_quoted (answer w));
             ProcessCsvCalled (toStdString (answer w))])
         (user w) (disk w)) /\
  filter is_cout (emitted onSelectFile w) =
    [StreamWrite Cout "Processing file: ";
     StreamWrite Cout (toStdString (answer w));
     StreamEndl Cout] /\
  filter is_cout (emitted onSelectFile w) =
    emitted (process_csv (toStdString (answer w))) w.
Proof.
  intros Hnonempty.
  rewrite (onSelectFile_nonempty_emitted w Hnonempty).
  rewrite (onSelectFile_nonempty_run w Hnonempty).
  rewrite process_csv_emitted.
  do 4 (split; [reflexivity |]).
  split; [| split; [| split; reflexivity]];
    [| rewrite process_csv_run; cbn [trace user disk];
       rewrite <- app_assoc; reflexivity].
  intros d.
  assert (Hd : isEmpty (answer (with_disk d w)) = false)
    by (rewrite answer_with_disk; exact Hnonempty).
  rewrite (onSelectFile_nonempty_emitted _ Hd).
  rewrite (onSelectFile_nonempty_run _ Hd).
  split; reflexivity.
Qed.

(** ** The processing stub *)

(** C3.  For every input, [process_csv] writes to [std::cout] the text
    ["Processing file: "], the input itself and an end of line, which
    makes one diagnostic line; that is all it does, and it returns
    [void]. *)
Theorem process_csv_one_line (input_file : string) (w : World) :
  process_csv input_file w =
    (Normal tt,
     mkWorld (trace w ++ [StreamWrite Cout "Processing file: ";
                          StreamWrite Cout input_file;
                          StreamEndl Cout])
             (user w) (disk w)) /\
  stream_text Cout (emitted (process_csv input_file) w) =
    ("Processing file: " ++ input_file ++ newline)%string /\
  log_lines (emitted (process_csv input_file) w) =
    [("Processing file: " ++ input_file)%string].
Proof.
  rewrite process_csv_emitted. split; [apply process_csv_run |].
  split.
  - reflexivity.
  - reflexivity.
Qed.

(** C5.  For every input and every state of the disk, [process_csv]
    returns normally, adds only writes to [std::cout] to the trace, and
    leaves the user and the disk as they were; what it prints does not
    depend on the files that exist. *)
Theorem process_csv_frame (input_file : string) (w : World) :
  fst (process_csv input_file w) = Normal tt /\
  trace (snd (process_csv input_file w)) =
    (trace w ++ emitted (process_csv input_file) w)%list /\
  forallb is_cout (emitted (process_csv input_file) w) = true /\
  user (snd (process_csv input_file w)) = user w /\
  disk (snd (process_csv input_file w)) = disk w /\
  forall d : string -> option string,
    fst (process_csv input_file (with_disk d w)) = Normal tt /\
    emitted (process_csv input_file) (with_disk d w) =
    emitted (process_csv input_file) w.
Proof.
  rewrite process_csv_emitted, process_csv_run.
  do 5 (split; [reflexivity |]).
  intros d. rewrite process_csv_emitted, process_csv_run.
  split; reflexivity.
Qed.

(** C6.  For every input the [try] block of [process_csv] ends
    normally, so the [catch] block is dead code: whatever handler
    stands there, the function behaves as its [try] block alone, and
    nothing reaches [std::cerr]. *)
Theorem process_csv_catch_unreachable (input_file : string) (w : World) :
  (exists w' : World,
     process_csv_try no_csv_logic input_file w = (Normal tt, w')) /\
  (forall handler : string -> M unit,
     try_catch_std_exception
       (process_csv_try no_csv_logic input_file) handler w =
     process_csv_try no_csv_logic input_file w) /\
  stream_text Cerr (emitted (process_csv input_file) w) = "".
Proof.
  split; [| split].
  - eexists. apply process_csv_try_run.
  - intros handler. unfold try_catch_std_exception.
    rewrite process_csv_try_run. reflexivity.
  - rewrite process_csv_emitted. reflexivity.
Qed.

(** C7.  When a path is selected, the run produces exactly two
    diagnostic lines, in this order: the [qDebug] message
    ["Selected file: "] with the path as [QDebug] renders it, then the
    [std::cout] line ["Processing file: "] with the path. *)
Theorem onSelectFile_two_log_lines (w : World) :
  isEmpty (answer w) = false ->
  log_lines (emitted onSelectFile w) =
    [("Selected file: " ++ qdebug_quoted (answer w))%string;
     ("Processing file: " ++ toStdString (answer w))%string] /\
  emitted onSelectFile w =
    [FileDialogOpened "Open CSV File" "" "CSV Files (*.csv)" (answer w);
     DebugMessage ("Selected file: " ++ qdebug_quoted (answer w));
     ProcessCsvCalled (toStdString (answer w));
     StreamWrite Cout "Processing file: ";
     StreamWrite Cout (toStdString (answer w));
     StreamEndl Cout] /\
  stream_text Cerr (emitted onSelectFile w) = "".
Proof.
  intros Hnonempty.
  rewrite (onSelectFile_nonempty_emitted w Hnonempty).
  repeat (split; [reflexivity |]). reflexivity.
Qed.

(** ** The window and the event loop *)

Lemma run_unit_then_ret (m : M unit) (w : World) :
  (m ;; ret tt) w = m w.
Proof.
  cbv [bind ret Monad_M M_bind M_ret].
  destruct (m w) as [[[] | e] w']; reflexivity.
Qed.

(** The window [main] shows reacts to a click on its first child and
    to nothing else. *)
Lemma click_main_window (button : widget_id) (w : World) :
  click main_window button w =
  if Nat.eqb button 0 then onSelectFile w else (Normal tt, w).
Proof.
  destruct button as [| b]; unfold click, receivers; simpl;
    [apply run_unit_then_ret | reflexivity].
Qed.

(** C8, as amended.  Whatever the parent, the constructor gives the
    window the initial size 300 by 100 and exactly one child, a button
    labelled ["Select CSV File"]; it sets neither a minimum nor a
    maximum size, so the size is not fixed.  [main] then shows that
    window.  The one connection made is from the button's [clicked]
    signal to [onSelectFile], so a click on the button runs the
    file-selection flow and the window offers nothing else. *)
Theorem MainWindow_ctor_one_button (parent : option widget_id) :
  window_size (MainWindow_ctor parent) = Some (300, 100)%Z /\
  window_minimumSize (MainWindow_ctor parent) = None /\
  window_maximumSize (MainWindow_ctor parent) = None /\
  is_fixed_size (MainWindow_ctor parent) = false /\
  window_children (MainWindow_ctor parent) =
    [mkButton "Select CSV File" (Some (50, 20, 200, 50)%Z)] /\
  window_connections (MainWindow_ctor parent) =
    [mkConnection 0 Clicked SlotOnSelectFile] /\
  main_window = show (MainWindow_ctor None) /\
  window_visible main_window = true /\
  window_size main_window = Some (300, 100)%Z /\
  window_children main_window = window_children (MainWindow_ctor None) /\
  forall (button : widget_id) (w : World),
    click main_window button w =
    if Nat.eqb button 0 then onSelectFile w else (Normal tt, w).
Proof.
  do 10 (split; [reflexivity |]).
  intros button w. apply click_main_window.
Qed.

(** ** Determinism and the two branches *)

(** C9.  What a run of the slot does is a function of the string the
    dialog returns: two runs with the same answer end the same way, add
    the same actions to the trace and so take the same branch and print
    the same lines, whatever happened before and whatever is on the
    disk.  Each run takes exactly one branch: the warning when the
    answer is empty, the processing otherwise. *)
Theorem onSelectFile_deterministic_one_branch (w1 w2 : World) :
  answer w1 = answer w2 ->
  fst (onSelectFile w1) = fst (onSelectFile w2) /\
  emitted onSelectFile w1 = emitted onSelectFile w2 /\
  log_lines (emitted onSelectFile w1) = log_lines (emitted onSelectFile w2) /\
  warning_branch_taken (emitted onSelectFile w1) =
    warning_branch_taken (emitted onSelectFile w2) /\
  processing_branch_taken (emitted onSelectFile w1) =
    processing_branch_taken (emitted onSelectFile w2) /\
  warning_branch_taken (emitted onSelectFile w1) = isEmpty (answer w1) /\
  processing_branch_taken (emitted onSelectFile w1) =
    negb (isEmpty (answer w1)) /\
  xorb (warning_branch_taken (emitted onSelectFile w1))
       (processing_branch_taken (emitted onSelectFile w1)) = true.
Proof.
  intros Hsame.
  destruct (isEmpty (answer w1)) eqn:H1.
  - assert (H2 : isEmpty (answer w2) = true) by (rewrite <- Hsame; exact H1).
    rewrite (onSelectFile_empty_emitted w1 H1).
    rewrite (onSelectFile_empty_emitted w2 H2).
    rewrite (onSelectFile_empty_run w1 H1).
    rewrite (onSelectFile_empty_run w2 H2).
    rewrite Hsame. do 7 (split; [reflexivity |]). reflexivity.
  - assert (H2 : isEmpty (answer w2) = false) by (rewrite <- Hsame; exact H1).
    rewrite (onSelectFile_nonempty_emitted w1 H1).
    rewrite (onSelectFile_nonempty_emitted w2 H2).
    rewrite (onSelectFile_nonempty_run w1 H1).
    rewrite (onSelectFile_nonempty_run w2 H2).
    rewrite Hsame. do 7 (split; [reflexivity |]). reflexivity.
Qed.

(** ** No empty path reaches [process_csv] *)

Lemma process_csv_calls_app (l r : list event) :
  process_csv_calls (l ++ r) = (process_csv_calls l ++ process_csv_calls r)%list.
Proof.
  induction l as [| e l IH]; simpl; [reflexivity |].
  destruct e; simpl; rewrite IH; reflexivity.
Qed.

(** Every run of the slot ends normally, extends the trace, and calls
    [process_csv] with paths that are not empty only. *)
Lemma onSelectFile_extends (w : World) :
  exists l : list event,
    onSelectFile w = (Normal tt, mkWorld (trace w ++ l) (user w) (disk w)) /\
    Forall (fun p => p <> "") (process_csv_calls l).
Proof.
  destruct (isEmpty (answer w)) eqn:Hanswer.
  - eexists. split; [apply (onSelectFile_empty_run w Hanswer) |].
    simpl. constructor.
  - eexists. split; [apply (onSelectFile_nonempty_run w Hanswer) |].
    simpl. constructor; [| constructor].
    apply toStdString_nonempty. exact Hanswer.
Qed.

(** The same for a whole session of clicks. *)
Lemma main_extends (clicks : list widget_id) (w : World) :
  exists l : list event,
    main clicks w = (Normal tt, mkWorld (trace w ++ l) (user w) (disk w)) /\
    Forall (fun p => p <> "") (process_csv_calls l).
Proof.
  unfold main. revert w.
  induction clicks as [| button clicks IH]; intros w.
  - exists []. split; [| constructor].
    destruct w as [tr u d]. simpl. rewrite app_nil_r. reflexivity.
  - cbn [app_exec]. cbv [bind Monad_M M_bind].
    rewrite (click_main_window button w).
    destruct (Nat.eqb button 0).
    + destruct (onSelectFile_extends w) as [l [Hrun Hcalls]].
      rewrite Hrun.
      destruct (IH (mkWorld (trace w ++ l) (user w) (disk w)))
        as [l' [Hrun' Hcalls']].
      exists (l ++ l')%list. split.
      * rewrite Hrun'. simpl. rewrite app_assoc. reflexivity.
      * rewrite process_csv_calls_app. apply Forall_app. split; assumption.
    + exact (IH w).
Qed.

Lemma onSelectFile_run (w : World) :
  onSelectFile w =
  (Normal tt,
   mkWorld (trace w ++ slot_events (answer w)) (user w) (disk w)).
Proof.
  unfold slot_events. destruct (isEmpty (answer w)) eqn:Hanswer.
  - apply onSelectFile_empty_run. exact Hanswer.
  - apply onSelectFile_nonempty_run. exact Hanswer.
Qed.

Lemma onSelectFile_emitted (w : World) :
  emitted onSelectFile w = slot_events (answer w).
Proof.
  apply emitted_extension. rewrite onSelectFile_run. reflexivity.
Qed.

Lemma main_nil_emitted (w : World) : emitted (main []) w = [].
Proof.
  apply emitted_extension. simpl. rewrite app_nil_r. reflexivity.
Qed.

Lemma main_cons_run (button : widget_id) (clicks : list widget_id)
    (w : World) :
  main (button :: clicks) w =
  if Nat.eqb button 0 then main clicks (after_slot w) else main clicks w.
Proof.
  unfold main. cbn [app_exec]. cbv [bind Monad_M M_bind].
  rewrite (click_main_window button w).
  destruct (Nat.eqb button 0); [| reflexivity].
  rewrite onSelectFile_run. reflexivity.
Qed.

Lemma main_cons_emitted (button : widget_id) (clicks : list widget_id)
    (w : World) :
  emitted (main (button :: clicks)) w =
  if Nat.eqb button 0
  then (slot_events (answer w) ++ emitted (main clicks) (after_slot w))%list
  else emitted (main clicks) w.
Proof.
  unfold emitted at 1. rewrite main_cons_run.
  destruct (Nat.eqb button 0); [| reflexivity].
  destruct (main_extends clicks (after_slot w)) as [l [Hrun _]].
  assert (Hl : emitted (main clicks) (after_slot w) = l).
  { apply emitted_extension. rewrite Hrun. reflexivity. }
  rewrite Hl, Hrun. simpl. rewrite <- app_assoc. apply skipn_length_app.
Qed.

(** How the readers of a trace see the actions of one run. *)
Lemma dialog_answers_slot (q : QString) (r : list event) :
  dialog_answers (slot_events q ++ r) = q :: dialog_answers r.
Proof. unfold slot_events. destruct (isEmpty q); reflexivity. Qed.

Lemma dialog_settings_slot (q : QString) (r : list event) :
  dialog_settings (slot_events q ++ r) =
  ("Open CSV File", "", "CSV Files (*.csv)") :: dialog_settings r.
Proof. unfold slot_events. destruct (isEmpty q); reflexivity. Qed.

Lemma process_csv_calls_slot (q : QString) (r : list event) :
  process_csv_calls (slot_events q ++ r) =
  if isEmpty q then process_csv_calls r
  else toStdString q :: process_csv_calls r.
Proof. unfold slot_events. destruct (isEmpty q); reflexivity. Qed.

Lemma warnings_shown_slot (q : QString) (r : list event) :
  warnings_shown (slot_events q ++ r) =
  if isEmpty q
  then ("No File Selected", "Please select a valid CSV file.")
       :: warnings_shown r
  else warnings_shown r.
Proof. unfold slot_events. destruct (isEmpty q); reflexivity. Qed.

Lemma log_lines_slot (q : QString) (r : list event) :
  log_lines (slot_events q ++ r) = (answer_log q ++ log_lines r)%list.
Proof.
  unfold slot_events, answer_log, log_lines.
  destruct (isEmpty q); reflexivity.
Qed.

Lemma stream_text_cerr_slot (q : QString) (r : list event) :
  stream_text Cerr (slot_events q ++ r) = stream_text Cerr r.
Proof. unfold slot_events. destruct (isEmpty q); reflexivity. Qed.

(** What reaches [std::cout] in a session is the output of the calls
    of [process_csv] the trace marks, in their order, and nothing
    else. *)
Lemma cout_slot (q : QString) (r : list event) :
  filter is_cout (slot_events q ++ r) =
  ((if isEmpty q then []
    else [StreamWrite Cout "Processing file: ";
          StreamWrite Cout (toStdString q);
          StreamEndl Cout]) ++ filter is_cout r)%list.
Proof. unfold slot_events. destruct (isEmpty q); reflexivity. Qed.

Lemma main_cout_follows_calls (clicks : list widget_id) (w : World) :
  filter is_cout (emitted (main clicks) w) =
  flat_map (fun p => [StreamWrite Cout "Processing file: ";
                      StreamWrite Cout p;
                      StreamEndl Cout])
           (process_csv_calls (emitted (main clicks) w)).
Proof.
  revert w. induction clicks as [| button clicks IH]; intros w.
  - rewrite main_nil_emitted. reflexivity.
  - rewrite main_cons_emitted.
    destruct (Nat.eqb button 0); [| apply IH].
    rewrite cout_slot, process_csv_calls_slot, (IH (after_slot w)).
    destruct (isEmpty (answer w)); reflexivity.
Qed.

(** C10.  An empty dialog result is handled as a cancellation: the run
    consists of the dialog and the warning, makes no call of
    [process_csv] and writes nothing to [std::cout].  Hence, in any
    session of clicks on the window, every call of [process_csv]
    receives a path that is not empty, and what the session writes to
    [std::cout] is the output of these calls and of no other. *)
Theorem empty_path_never_processed :
  (forall w : World,
     isEmpty (answer w) = true ->
     warnings_shown (emitted onSelectFile w) =
       [("No File Selected", "Please select a valid CSV file.")] /\
     process_csv_calls (emitted onSelectFile w) = [] /\
     emitted onSelectFile w =
       [FileDialogOpened "Open CSV File" "" "CSV Files (*.csv)" (answer w);
        WarningShown "No File Selected" "Please select a valid CSV file."] /\
     filter is_cout (emitted onSelectFile w) = []) /\
  (forall (w : World) (p : string),
     In p (process_csv_calls (emitted onSelectFile w)) ->
     isEmpty (answer w) = false /\ p = toStdString (answer w) /\ p <> "") /\
  (forall (clicks : list widget_id) (w : World) (p : string),
     In p (process_csv_calls (emitted (main clicks) w)) -> p <> "") /\
  (forall (clicks : list widget_id) (w : World),
     filter is_cout (emitted (main clicks) w) =
     flat_map (fun p => [StreamWrite Cout "Processing file: ";
                         StreamWrite Cout p;
                         StreamEndl Cout])
              (process_csv_calls (emitted (main clicks) w))).
Proof.
  split; [| split; [| split]].
  - intros w Hempty. rewrite (onSelectFile_empty_emitted w Hempty).
    do 3 (split; [reflexivity |]). reflexivity.
  - intros w p Hin. destruct (isEmpty (answer w)) eqn:Hanswer.
    + rewrite (onSelectFile_empty_emitted w Hanswer) in Hin. destruct Hin.
    + rewrite (onSelectFile_nonempty_emitted w Hanswer) in Hin.
      simpl in Hin. destruct Hin as [Hp | []]. subst p.
      split; [reflexivity |]. split; [reflexivity |].
      apply toStdString_nonempty. exact Hanswer.
  - intros clicks w p Hin.
    destruct (main_extends clicks w) as [l [Hrun Hcalls]].
    assert (Hemitted : emitted (main clicks) w = l).
    { apply emitted_extension. rewrite Hrun. reflexivity. }
    rewrite Hemitted in Hin.
    rewrite Forall_forall in Hcalls. exact (Hcalls p Hin).
  - intros clicks w. apply main_cout_follows_calls.
Qed.

(** ** One run of the slot, whatever the answer *)

(** X1.  Every run of the slot opens exactly one file dialog, before
    anything else, with the caption ["Open CSV File"], no start
    directory and the filter ["CSV Files (*.csv)"]. *)
Theorem onSelectFile_opens_one_dialog (w : World) :
  hd_error (emitted onSelectFile w) =
    Some (FileDialogOpened "Open CSV File" "" "CSV Files (*.csv)"
            (answer w)) /\
  dialog_settings (emitted onSelectFile w) =
    [("Open CSV File", "", "CSV Files (*.csv)")] /\
  dialog_answers (emitted onSelectFile w) = [answer w].
Proof.
  rewrite onSelectFile_emitted. unfold slot_events.
  destruct (isEmpty (answer w)); repeat (split; [reflexivity |]);
    reflexivity.
Qed.

(** ** Sessions *)

(** X2.  A session of clicks, however long, ends normally: no
    exception leaves the event loop.  It keeps the earlier trace and
    only appends to it, leaves the disk as it was, and what it does is
    the same whatever files exist. *)
Theorem main_session_frame (clicks : list widget_id) (w : World) :
  fst (main clicks w) = Normal tt /\
  trace (snd (main clicks w)) = (trace w ++ emitted (main clicks) w)%list /\
  disk (snd (main clicks w)) = disk w /\
  forall d : string -> option string,
    emitted (main clicks) (with_disk d w) = emitted (main clicks) w.
Proof.
  split; [| split; [| split]].
  - destruct (main_extends clicks w) as [l [Hrun _]].
    rewrite Hrun. reflexivity.
  - destruct (main_extends clicks w) as [l [Hrun _]].
    assert (Hl : emitted (main clicks) w = l)
      by (apply emitted_extension; rewrite Hrun; reflexivity).
    rewrite Hl, Hrun. reflexivity.
  - destruct (main_extends clicks w) as [l [Hrun _]].
    rewrite Hrun. reflexivity.
  - intros d. revert w.
    induction clicks as [| button clicks IH]; intros w.
    + rewrite !main_nil_emitted. reflexivity.
    + rewrite !main_cons_emitted.
      destruct (Nat.eqb button 0); [| apply IH].
      rewrite <- (IH (after_slot w)). reflexivity.
Qed.

(** X3.  A session opens one file dialog for each click on the button
    and none for a click anywhere else; every one of these dialogs has
    the same caption, start directory and filter. *)
Theorem main_one_dialog_per_button_click
    (clicks : list widget_id) (w : World) :
  length (dialog_answers (emitted (main clicks) w)) =
    length (clicks_on 0 clicks) /\
  dialog_settings (emitted (main clicks) w) =
    map (fun _ => ("Open CSV File", "", "CSV Files (*.csv)"))
        (clicks_on 0 clicks).
Proof.
  revert w. induction clicks as [| button clicks IH]; intros w.
  - rewrite main_nil_emitted. split; reflexivity.
  - rewrite main_cons_emitted. unfold clicks_on in *. cbn [filter].
    destruct (Nat.eqb button 0).
    + rewrite dialog_answers_slot, dialog_settings_slot.
      destruct (IH (after_slot w)) as [Hlen Hset].
      cbn [length map]. rewrite Hlen, Hset. split; reflexivity.
    + apply IH.
Qed.

(** X4.  In a session, the calls of [process_csv] are, in order, the
    [std::string] forms of the dialog answers that are not empty, one
    call for each; and one warning box, always with the same title and
    text, is shown for each answer that is empty.  What the session
    writes to [std::cout] is the output of [process_csv] for each of
    these answers, in order, and nothing else. *)
Theorem main_calls_follow_answers (clicks : list widget_id) (w : World) :
  process_csv_calls (emitted (main clicks) w) =
    map toStdString
      (filter (fun q => negb (isEmpty q))
         (dialog_answers (emitted (main clicks) w))) /\
  warnings_shown (emitted (main clicks) w) =
    map (fun _ => ("No File Selected", "Please select a valid CSV file."))
      (filter isEmpty (dialog_answers (emitted (main clicks) w))) /\
  filter is_cout (emitted (main clicks) w) =
    flat_map (fun q => [StreamWrite Cout "Processing file: ";
                        StreamWrite Cout (toStdString q);
                        StreamEndl Cout])
      (filter (fun q => negb (isEmpty q))
         (dialog_answers (emitted (main clicks) w))).
Proof.
  revert w. induction clicks as [| button clicks IH]; intros w.
  - rewrite main_nil_emitted. repeat split.
  - rewrite main_cons_emitted.
    destruct (Nat.eqb button 0); [| apply IH].
    rewrite process_csv_calls_slot, warnings_shown_slot, dialog_answers_slot,
      cout_slot.
    destruct (IH (after_slot w)) as [Hcalls [Hwarn Hcout]].
    cbn [filter]. destruct (isEmpty (answer w)); cbn [negb map flat_map];
      rewrite Hcalls, Hwarn, Hcout; repeat split.
Qed.

(** X5.  The diagnostic output of a session is, for each dialog answer
    that is not empty and in the order of the answers, the line
    ["Selected file: ..."] followed by the line ["Processing file: ..."];
    an empty answer adds no line, and nothing is ever written to
    [std::cerr]. *)
Theorem main_session_log (clicks : list widget_id) (w : World) :
  log_lines (emitted (main clicks) w) =
    flat_map answer_log (dialog_answers (emitted (main clicks) w)) /\
  stream_text Cerr (emitted (main clicks) w) = "".
Proof.
  revert w. induction clicks as [| button clicks IH]; intros w.
  - rewrite main_nil_emitted. split; reflexivity.
  - rewrite main_cons_emitted.
    destruct (Nat.eqb button 0); [| apply IH].
    rewrite log_lines_slot, stream_text_cerr_slot, dialog_answers_slot.
    destruct (IH (after_slot w)) as [Hlog Herr].
    cbn [flat_map]. rewrite Hlog, Herr. split; reflexivity.
Qed.

End Properties.

(** * The properties on concrete runs *)

(** The user cancels: one dialog, one warning, no call. *)
Lemma onSelectFile_cancel_warns_once_witness :
  isEmpty (answer world_cancel) = true /\
  emitted onSelectFile world_cancel =
    [FileDialogOpened "Open CSV File" "" "CSV Files (*.csv)" "";
     WarningShown "No File Selected" "Please select a valid CSV file."] /\
  process_csv_calls (emitted onSelectFile world_cancel) = [].
Proof.
  split; [reflexivity |].
  destruct (onSelectFile_cancel_warns_once world_cancel eq_refl)
    as [_ [Hemitted [_ Hcalls]]].
  split; [exact Hemitted | exact Hcalls].
Defined.

(** The user picks [/data/load.csv]: one call, with that path. *)
Lemma onSelectFile_path_processed_once_witness :
  isEmpty (answer world_pick) = false /\
  process_csv_calls (emitted onSelectFile world_pick) = ["/data/load.csv"] /\
  warnings_shown (emitted onSelectFile world_pick) = [].
Proof.
  split; [reflexivity |].
  destruct (onSelectFile_path_processed_once world_pick eq_refl)
    as [_ [Hcalls [Hwarnings _]]].
  split; [exact Hcalls | exact Hwarnings].
Defined.

(** The two lines of a run that selects [/data/load.csv]. *)
Lemma onSelectFile_two_log_lines_witness :
  isEmpty (answer world_missing) = false /\
  log_lines (emitted onSelectFile world_missing) =
    [("Selected file: " ++ dquote ++ "/data/load.csv" ++ dquote)%string;
     "Processing file: /data/load.csv"].
Proof.
  split; [reflexivity |].
  destruct (onSelectFile_two_log_lines world_missing eq_refl) as [Hlines _].
  exact Hlines.
Defined.

(** Two runs that differ in their past and in the files on the disk,
    with the same answer. *)
Lemma onSelectFile_deterministic_one_branch_witness :
  answer world_pick = answer world_missing /\
  trace world_pick <> trace world_missing /\
  disk world_pick "/data/load.csv" <> disk world_missing "/data/load.csv" /\
  emitted onSelectFile world_pick = emitted onSelectFile world_missing /\
  processing_branch_taken (emitted onSelectFile world_pick) = true /\
  warning_branch_taken (emitted onSelectFile world_pick) = false.
Proof.
  split; [reflexivity |].
  split; [discriminate |].
  split; [discriminate |].
  destruct (onSelectFile_deterministic_one_branch
              world_pick world_missing eq_refl)
    as [_ [Hemitted [_ [_ [_ [Hwarn [Hproc _]]]]]]].
  split; [exact Hemitted |].
  split; [exact Hproc | exact Hwarn].
Defined.

(** A session of two clicks on the button, and one beside it. *)
Lemma empty_path_never_processed_witness :
  isEmpty (answer world_cancel) = true /\
  process_csv_calls (emitted onSelectFile world_cancel) = [] /\
  filter is_cout (emitted onSelectFile world_cancel) = [] /\
  In "/data/load.csv"
     (process_csv_calls (emitted (main [0; 1; 0]%nat) world_pick)) /\
  "/data/load.csv" <> "".
Proof.
  destruct empty_path_never_processed as [Hcancel [_ [Hsession _]]].
  split; [reflexivity |].
  destruct (Hcancel world_cancel eq_refl) as [_ [Hcalls [_ Hcout]]].
  split; [exact Hcalls |].
  split; [exact Hcout |].
  assert (Hin : In "/data/load.csv"
                  (process_csv_calls
                     (emitted (main [0; 1; 0]%nat) world_pick)))
    by (left; reflexivity).
  split; [exact Hin | exact (Hsession _ world_pick _ Hin)].
Defined.

(** C8, as stated, fails: the window [main] shows does not have a
    fixed size.  The constructor only calls [resize(300, 100)], which
    gives the initial size; no minimum and no maximum size is ever
    set. *)
Lemma MainWindow_not_fixed_size :
  window_size main_window = Some (300, 100)%Z /\
  window_minimumSize main_window = None /\
  window_maximumSize main_window = None /\
  is_fixed_size main_window = false.
Proof. repeat split. Qed.

(** ** Further concrete runs *)

(** [process_csv] on the empty string. *)
Example process_csv_empty_string :
  process_csv "" world_cancel =
  (Normal tt,
   mkWorld [StreamWrite Cout "Processing file: "; StreamWrite Cout "";
            StreamEndl Cout]
           (user world_cancel) (disk world_cancel)).
Proof. reflexivity. Qed.

(** [process_csv] on the path of a file that does not exist. *)
Example process_csv_missing_file :
  disk world_missing "/data/load.csv" = None /\
  fst (process_csv "/data/load.csv" world_missing) = Normal tt /\
  emitted (process_csv "/data/load.csv") world_missing =
    [StreamWrite Cout "Processing file: ";
     StreamWrite Cout "/data/load.csv"; StreamEndl Cout].
Proof. repeat split. Qed.

(** A click beside the button does nothing. *)
Example click_elsewhere :
  emitted (main [1; 2]%nat) world_pick = [].
Proof. reflexivity. Qed.

(** A session in which the user first cancels, then picks two files;
    the second click lands beside the button. *)
Example session_retry :
  dialog_answers (emitted (main [0; 1; 0; 0]%nat) world_retry) =
    [""; "/data/load.csv"; "/data/old.csv"] /\
  process_csv_calls (emitted (main [0; 1; 0; 0]%nat) world_retry) =
    ["/data/load.csv"; "/data/old.csv"] /\
  length (warnings_shown (emitted (main [0; 1; 0; 0]%nat) world_retry)) =
    1%nat /\
  log_lines (emitted (main [0; 1; 0; 0]%nat) world_retry) =
    [("Selected file: " ++ dquote ++ "/data/load.csv" ++ dquote)%string;
     "Processing file: /data/load.csv";
     ("Selected file: " ++ dquote ++ "/data/old.csv" ++ dquote)%string;
     "Processing file: /data/old.csv"].
Proof. repeat split. Qed.
